(** * GeneratedAssetSymbols.h of ThemeKit: the declared asset symbols

    The header declares one resource bundle identifier and sixteen colour
    resource names, each as a [static NSString * const] bound to a string
    literal.  The development has four layers:

    - [Header]: the text of the header, line by line, and a reader that
      recognises its documentation comments and constant declarations;
    - [Symbols]: the constants themselves, one Rocq definition per C
      constant, under the names the header gives them;
    - [Table]: the table of declarations that the reader extracts from the
      text, symbol resolution against it, and the naming rule of the colour
      symbols;
    - [Cpp]: the preprocessor directives of the header, run over a macro
      table and a stack of conditional groups.

    The properties of the table and of the directives are proved at the
    end. *)

From Stdlib Require Import String Ascii List Bool Arith Lia Sorted.
Import ListNotations.

Open Scope list_scope.
Open Scope string_scope.

(** ** String helpers *)

Module Str.

(** The double quote character, code 34. *)
Definition dq : string := String (ascii_of_nat 34) EmptyString.

(** [strip_prefix p s] is [Some r] when [s = p ++ r]. *)
Fixpoint strip_prefix (p s : string) : option string :=
  match p with
  | EmptyString => Some s
  | String a p' =>
      match s with
      | EmptyString => None
      | String b s' => if Ascii.eqb a b then strip_prefix p' s' else None
      end
  end.

(** [strip_suffix q s] is [Some r] when [s = r ++ q]. *)
Definition strip_suffix (q s : string) : option string :=
  let n := String.length s - String.length q in
  if String.eqb (substring n (String.length q) s) q
  then Some (substring 0 n s)
  else None.

(** [break_at c s] splits [s] at the first occurrence of [c], which is
    dropped: [Some (before, after)], or [None] when [c] does not occur. *)
Fixpoint break_at (c : ascii) (s : string) : option (string * string) :=
  match s with
  | EmptyString => None
  | String a s' =>
      if Ascii.eqb a c then Some (EmptyString, s')
      else match break_at c s' with
           | Some (u, v) => Some (String a u, v)
           | None => None
           end
  end.

Definition is_upper (c : ascii) : bool :=
  let n := nat_of_ascii c in ((65 <=? n) && (n <=? 90))%nat.

Definition to_lower (c : ascii) : ascii :=
  if is_upper c then ascii_of_nat (nat_of_ascii c + 32) else c.

(** Lowercase the first character of a string, leaving the rest as it is. *)
Definition lower_first (s : string) : string :=
  match s with
  | EmptyString => EmptyString
  | String c r => String (to_lower c) r
  end.

(** A string that starts with an upper-case ASCII letter. *)
Definition capitalised (s : string) : bool :=
  match s with
  | EmptyString => false
  | String c _ => is_upper c
  end.

Definition nonempty (s : string) : bool :=
  match s with
  | EmptyString => false
  | String _ _ => true
  end.

(** Pairwise distinctness of a list of strings, as a boolean. *)
Fixpoint mem (x : string) (l : list string) : bool :=
  match l with
  | [] => false
  | y :: l' => String.eqb x y || mem x l'
  end.

Fixpoint distinct (l : list string) : bool :=
  match l with
  | [] => true
  | x :: l' => negb (mem x l') && distinct l'
  end.

End Str.

(** ** The text of the header *)

Module Header.

Import Str.

(** The lines of GeneratedAssetSymbols.h, in order.  A double quote inside
    a line is written [dq]. *)
Definition GeneratedAssetSymbols_h : list string :=
  [ "#import <Foundation/Foundation.h>"
  ; ""
  ; "#if __has_attribute(swift_private)"
  ; "#define AC_SWIFT_PRIVATE __attribute__((swift_private))"
  ; "#else"
  ; "#define AC_SWIFT_PRIVATE"
  ; "#endif"
  ; ""
  ; "/// The resource bundle ID."
  ; "static NSString * const ACBundleID AC_SWIFT_PRIVATE = @" ++ dq ++ "themekit.ThemeKit" ++ dq ++ ";"
  ; ""
  ; "/// The " ++ dq ++ "bubblegum" ++ dq ++ " asset catalog color resource."
  ; "static NSString * const ACColorNameBubblegum AC_SWIFT_PRIVATE = @" ++ dq ++ "bubblegum" ++ dq ++ ";"
  ; ""
  ; "/// The " ++ dq ++ "buttercup" ++ dq ++ " asset catalog color resource."
  ; "static NSString * const ACColorNameButtercup AC_SWIFT_PRIVATE = @" ++ dq ++ "buttercup" ++ dq ++ ";"
  ; ""
  ; "/// The " ++ dq ++ "indigo" ++ dq ++ " asset catalog color resource."
  ; "static NSString * const ACColorNameIndigo AC_SWIFT_PRIVATE = @" ++ dq ++ "indigo" ++ dq ++ ";"
  ; ""
  ; "/// The " ++ dq ++ "lavender" ++ dq ++ " asset catalog color resource."
  ; "static NSString * const ACColorNameLavender AC_SWIFT_PRIVATE = @" ++ dq ++ "lavender" ++ dq ++ ";"
  ; ""
  ; "/// The " ++ dq ++ "magenta" ++ dq ++ " asset catalog color resource."
  ; "static NSString * const ACColorNameMagenta AC_SWIFT_PRIVATE = @" ++ dq ++ "magenta" ++ dq ++ ";"
  ; ""
  ; "/// The " ++ dq ++ "navy" ++ dq ++ " asset catalog color resource."
  ; "static NSString * const ACColorNameNavy AC_SWIFT_PRIVATE = @" ++ dq ++ "navy" ++ dq ++ ";"
  ; ""
  ; "/// The " ++ dq ++ "orange" ++ dq ++ " asset catalog color resource."
  ; "static NSString * const ACColorNameOrange AC_SWIFT_PRIVATE = @" ++ dq ++ "orange" ++ dq ++ ";"
  ; ""
  ; "/// The " ++ dq ++ "oxblood" ++ dq ++ " asset catalog color resource."
  ; "static NSString * const ACColorNameOxblood AC_SWIFT_PRIVATE = @" ++ dq ++ "oxblood" ++ dq ++ ";"
  ; ""
  ; "/// The " ++ dq ++ "periwinkle" ++ dq ++ " asset catalog color resource."
  ; "static NSString * const ACColorNamePeriwinkle AC_SWIFT_PRIVATE = @" ++ dq ++ "periwinkle" ++ dq ++ ";"
  ; ""
  ; "/// The " ++ dq ++ "poppy" ++ dq ++ " asset catalog color resource."
  ; "static NSString * const ACColorNamePoppy AC_SWIFT_PRIVATE = @" ++ dq ++ "poppy" ++ dq ++ ";"
  ; ""
  ; "/// The " ++ dq ++ "purple" ++ dq ++ " asset catalog color resource."
  ; "static NSString * const ACColorNamePurple AC_SWIFT_PRIVATE = @" ++ dq ++ "purple" ++ dq ++ ";"
  ; ""
  ; "/// The " ++ dq ++ "seafoam" ++ dq ++ " asset catalog color resource."
  ; "static NSString * const ACColorNameSeafoam AC_SWIFT_PRIVATE = @" ++ dq ++ "seafoam" ++ dq ++ ";"
  ; ""
  ; "/// The " ++ dq ++ "sky" ++ dq ++ " asset catalog color resource."
  ; "static NSString * const ACColorNameSky AC_SWIFT_PRIVATE = @" ++ dq ++ "sky" ++ dq ++ ";"
  ; ""
  ; "/// The " ++ dq ++ "tan" ++ dq ++ " asset catalog color resource."
  ; "static NSString * const ACColorNameTan AC_SWIFT_PRIVATE = @" ++ dq ++ "tan" ++ dq ++ ";"
  ; ""
  ; "/// The " ++ dq ++ "teal" ++ dq ++ " asset catalog color resource."
  ; "static NSString * const ACColorNameTeal AC_SWIFT_PRIVATE = @" ++ dq ++ "teal" ++ dq ++ ";"
  ; ""
  ; "/// The " ++ dq ++ "yellow" ++ dq ++ " asset catalog color resource."
  ; "static NSString * const ACColorNameYellow AC_SWIFT_PRIVATE = @" ++ dq ++ "yellow" ++ dq ++ ";"
  ; ""
  ; "#undef AC_SWIFT_PRIVATE"
  ].

(** What a documentation comment says the constant below it stands for. *)
Inductive resource : Type :=
  | BundleID : resource
  | ColorResource : string -> resource.

(** One constant declaration: the resource its documentation comment
    announces (if any), the symbol, and the literal it is bound to. *)
Record decl : Type := mkDecl
  { decl_doc : option resource
  ; decl_name : string
  ; decl_value : string
  }.

(** [/// The resource bundle ID.] and
    [/// The "<asset>" asset catalog color resource.] *)
Definition read_doc (line : string) : option resource :=
  if String.eqb line "/// The resource bundle ID." then Some BundleID
  else
    match strip_prefix ("/// The " ++ dq) line with
    | None => None
    | Some rest =>
        match strip_suffix (dq ++ " asset catalog color resource.") rest with
        | Some asset => Some (ColorResource asset)
        | None => None
        end
    end.

(** [static NSString * const <symbol> AC_SWIFT_PRIVATE = @"<literal>";]
    gives [(symbol, literal)]. *)
Definition read_constant (line : string) : option (string * string) :=
  match strip_prefix "static NSString * const " line with
  | None => None
  | Some rest =>
      match break_at " "%char rest with
      | None => None
      | Some (symbol, rest') =>
          match strip_prefix ("AC_SWIFT_PRIVATE = @" ++ dq) rest' with
          | None => None
          | Some rest'' =>
              match strip_suffix (dq ++ ";") rest'' with
              | Some literal => Some (symbol, literal)
              | None => None
              end
          end
      end
  end.

(** Read the lines in order.  A documentation comment is remembered until
    the next declaration, which takes it; any other line forgets it. *)
Fixpoint read_lines (doc : option resource) (lines : list string) : list decl :=
  match lines with
  | [] => []
  | line :: rest =>
      match read_constant line with
      | Some (symbol, literal) =>
          mkDecl doc symbol literal :: read_lines None rest
      | None =>
          match read_doc line with
          | Some r => read_lines (Some r) rest
          | None => read_lines None rest
          end
      end
  end.

(** The declarations of the header, in source order. *)
Definition declarations : list decl :=
  Eval vm_compute in read_lines None GeneratedAssetSymbols_h.

End Header.

(** ** The constants, one definition per C constant *)

Module Symbols.

Definition ACBundleID : string := "themekit.ThemeKit".
Definition ACColorNameBubblegum : string := "bubblegum".
Definition ACColorNameButtercup : string := "buttercup".
Definition ACColorNameIndigo : string := "indigo".
Definition ACColorNameLavender : string := "lavender".
Definition ACColorNameMagenta : string := "magenta".
Definition ACColorNameNavy : string := "navy".
Definition ACColorNameOrange : string := "orange".
Definition ACColorNameOxblood : string := "oxblood".
Definition ACColorNamePeriwinkle : string := "periwinkle".
Definition ACColorNamePoppy : string := "poppy".
Definition ACColorNamePurple : string := "purple".
Definition ACColorNameSeafoam : string := "seafoam".
Definition ACColorNameSky : string := "sky".
Definition ACColorNameTan : string := "tan".
Definition ACColorNameTeal : string := "teal".
Definition ACColorNameYellow : string := "yellow".

(** The colour constants with their symbols, in source order. *)
Definition color_symbols : list (string * string) :=
  [ ("ACColorNameBubblegum", ACColorNameBubblegum)
  ; ("ACColorNameButtercup", ACColorNameButtercup)
  ; ("ACColorNameIndigo", ACColorNameIndigo)
  ; ("ACColorNameLavender", ACColorNameLavender)
  ; ("ACColorNameMagenta", ACColorNameMagenta)
  ; ("ACColorNameNavy", ACColorNameNavy)
  ; ("ACColorNameOrange", ACColorNameOrange)
  ; ("ACColorNameOxblood", ACColorNameOxblood)
  ; ("ACColorNamePeriwinkle", ACColorNamePeriwinkle)
  ; ("ACColorNamePoppy", ACColorNamePoppy)
  ; ("ACColorNamePurple", ACColorNamePurple)
  ; ("ACColorNameSeafoam", ACColorNameSeafoam)
  ; ("ACColorNameSky", ACColorNameSky)
  ; ("ACColorNameTan", ACColorNameTan)
  ; ("ACColorNameTeal", ACColorNameTeal)
  ; ("ACColorNameYellow", ACColorNameYellow)
  ].

(** All seventeen constants with their symbols, in source order. *)
Definition all_symbols : list (string * string) :=
  ("ACBundleID", ACBundleID) :: color_symbols.

End Symbols.

(** ** The table of declarations *)

Module Table.

Import Str Header.

(** The prefix of every colour resource symbol. *)
Definition color_prefix : string := "ACColorName".

Definition binding (d : decl) : string * string := (decl_name d, decl_value d).

Definition names : list string := map decl_name declarations.
Definition values : list string := map decl_value declarations.

(** A colour resource constant is one whose symbol is [ACColorName...]. *)
Definition is_color (d : decl) : bool := String.prefix color_prefix (decl_name d).

(** A bundle identifier constant is one documented as the bundle ID. *)
Definition is_bundle (d : decl) : bool :=
  match decl_doc d with
  | Some BundleID => true
  | _ => false
  end.

Definition color_declarations : list decl := filter is_color declarations.
Definition bundle_declarations : list decl := filter is_bundle declarations.

(** The asset that the documentation comment of a declaration names. *)
Definition doc_asset (d : decl) : option string :=
  match decl_doc d with
  | Some (ColorResource asset) => Some asset
  | _ => None
  end.

(** The source line that declares [d]. *)
Definition declaration_line (d : decl) : string :=
  "static NSString * const " ++ decl_name d ++ " AC_SWIFT_PRIVATE = @"
    ++ dq ++ decl_value d ++ dq ++ ";".

(** Resolving a symbol against a list of declarations: the first
    declaration of that symbol gives the value. *)
Fixpoint lookup (symbol : string) (ds : list decl) : option string :=
  match ds with
  | [] => None
  | d :: ds' =>
      if String.eqb symbol (decl_name d) then Some (decl_value d)
      else lookup symbol ds'
  end.

(** Referencing a symbol of the header. *)
Definition reference (symbol : string) : option string :=
  lookup symbol declarations.

(** A well-formed colour symbol: [ACColorName] followed by a capitalised
    suffix. *)
Definition color_symbol (symbol : string) : bool :=
  match strip_prefix color_prefix symbol with
  | Some suffix => capitalised suffix
  | None => false
  end.

(** The naming rule: drop [ACColorName] and lowercase the first letter of
    what is left. *)
Definition symbol_asset (symbol : string) : option string :=
  match strip_prefix color_prefix symbol with
  | Some suffix => Some (lower_first suffix)
  | None => None
  end.

End Table.

(** ** The preprocessor directives of the header

    Lines 1 to 7 import Foundation and define the macro AC_SWIFT_PRIVATE in
    one of two ways, depending on whether the compiler knows the attribute
    [swift_private]; the last line removes the macro again.  The directives
    are run over a macro table and a stack of conditional groups. *)

Module Cpp.

Import Str Header.






















End Cpp.

(** ** The order of the declarations *)

Module Order.

(** Strictly ascending order of a list of strings: every element is below
    all the later ones. *)
Fixpoint ascending (l : list string) : bool :=
  match l with
  | [] => true
  | x :: l' => forallb (String.ltb x) l' && ascending l'
  end.

End Order.

(** ** Facts about the string helpers *)

Section StrFacts.

Import Str.

Lemma mem_In (x : string) (l : list string) : mem x l = true <-> In x l.
Proof.
  induction l as [|y l IH]; simpl.
  - split; [discriminate | tauto].
  - rewrite orb_true_iff, IH, String.eqb_eq.
    split; intros [H|H]; auto.
Qed.

Lemma distinct_NoDup (l : list string) : distinct l = true -> NoDup l.
Proof.
  induction l as [|x l IH]; simpl; intro H.
  - constructor.
  - apply andb_true_iff in H as [Hx Hl].
    constructor; [| now apply IH].
    intro Hin. apply mem_In in Hin. rewrite Hin in Hx. discriminate.
Qed.

Lemma strip_prefix_spec (p s r : string) :
  strip_prefix p s = Some r <-> s = p ++ r.
Proof.
  revert s; induction p as [|a p IH]; intros s; simpl.
  - split; [intros [= ->] | intros ->]; reflexivity.
  - destruct s as [|b s].
    + split; discriminate.
    + destruct (Ascii.eqb_spec a b) as [->|Hab].
      * rewrite IH. split; [intros -> | intros [= ->]]; reflexivity.
      * split; [discriminate | intros [= Hb _]; congruence].
Qed.

Lemma nonempty_neq (s : string) : nonempty s = true <-> s <> "".
Proof.
  destruct s; simpl; split; try discriminate; congruence.
Qed.

(** An upper-case letter and its lower-case form are 32 apart, and the sum
    stays below 256, so the code of the result is known. *)
Lemma to_lower_code (c : ascii) :
  is_upper c = true -> nat_of_ascii (to_lower c) = nat_of_ascii c + 32.
Proof.
  intro Hc. unfold to_lower. rewrite Hc.
  unfold is_upper in Hc. simpl in Hc.
  apply andb_true_iff in Hc as [_ Hhi]. apply Nat.leb_le in Hhi.
  apply nat_ascii_embedding. lia.
Qed.

Lemma to_lower_inj (a b : ascii) :
  is_upper a = true -> is_upper b = true -> to_lower a = to_lower b -> a = b.
Proof.
  intros Ha Hb Hab.
  apply (f_equal nat_of_ascii) in Hab.
  rewrite (to_lower_code a Ha), (to_lower_code b Hb) in Hab.
  rewrite <- (ascii_nat_embedding a), <- (ascii_nat_embedding b).
  f_equal. lia.
Qed.

Lemma lower_first_inj (s t : string) :
  capitalised s = true -> capitalised t = true ->
  lower_first s = lower_first t -> s = t.
Proof.
  destruct s as [|a s], t as [|b t]; simpl; try discriminate.
  intros Ha Hb [= Hab ->]. f_equal. now apply to_lower_inj.
Qed.

End StrFacts.

(** ** Facts about the reader *)

Section ReaderFacts.

Import Str Header Table.

(** The table is what the reader extracts from the text of the header. *)
Lemma declarations_read : declarations = read_lines None GeneratedAssetSymbols_h.
Proof. vm_compute. reflexivity. Qed.

(** The table and the constants of [Symbols] agree. *)
Lemma declarations_symbols : map binding declarations = Symbols.all_symbols.
Proof. vm_compute. reflexivity. Qed.

(** A check that holds of every entry of the table holds of each one. *)
Lemma check_declarations (f : decl -> bool) :
  forallb f declarations = true -> forall d, In d declarations -> f d = true.
Proof. intros H d Hd. now apply (proj1 (forallb_forall f declarations) H). Qed.

Lemma color_declarations_declared (d : decl) :
  In d color_declarations -> In d declarations /\ is_color d = true.
Proof. unfold color_declarations. now rewrite filter_In. Qed.

(** [lookup] returns the value of a declaration of the list when no symbol
    is declared twice. *)
Lemma lookup_In (ds : list decl) :
  NoDup (map decl_name ds) ->
  forall d, In d ds -> lookup (decl_name d) ds = Some (decl_value d).
Proof.
  induction ds as [|e ds IH]; simpl; intros Hnd d Hd; [tauto|].
  inversion Hnd as [|x l Hnotin Hnd']; subst.
  destruct Hd as [->|Hd].
  - now rewrite String.eqb_refl.
  - destruct (String.eqb_spec (decl_name d) (decl_name e)) as [Heq|_].
    + exfalso. apply Hnotin. rewrite <- Heq. now apply in_map.
    + now apply IH.
Qed.

(** The header declares no symbol twice, so [lookup] never shadows one
    declaration by another. *)
Lemma declared_once : NoDup (map decl_name declarations).
Proof. apply distinct_NoDup. vm_compute. reflexivity. Qed.

(** [lookup] fails exactly on the symbols that are not declared. *)
Lemma lookup_None (symbol : string) (ds : list decl) :
  lookup symbol ds = None <-> ~ In symbol (map decl_name ds).
Proof.
  induction ds as [|e ds IH]; simpl; [tauto|].
  destruct (String.eqb_spec symbol (decl_name e)) as [->|Hne].
  - split; [discriminate | intros H; elim H; now left].
  - rewrite IH. split; [intros H [E|E]; congruence || tauto | tauto].
Qed.

End ReaderFacts.

(** ** Properties of the declared constants *)

Section Properties.

Import Str Header Table.

(** C1: every colour resource constant is bound to the name of the asset it
    denotes.  The sixteen colour declarations of the header are, in order,
    ACColorNameBubblegum = "bubblegum", ACColorNameButtercup = "buttercup",
    ..., ACColorNameYellow = "yellow"; they are the constants of [Symbols];
    and each value is the asset named in the documentation comment above
    its declaration. *)
Theorem color_values_match_assets :
  map binding color_declarations =
    [ ("ACColorNameBubblegum", "bubblegum")
    ; ("ACColorNameButtercup", "buttercup")
    ; ("ACColorNameIndigo", "indigo")
    ; ("ACColorNameLavender", "lavender")
    ; ("ACColorNameMagenta", "magenta")
    ; ("ACColorNameNavy", "navy")
    ; ("ACColorNameOrange", "orange")
    ; ("ACColorNameOxblood", "oxblood")
    ; ("ACColorNamePeriwinkle", "periwinkle")
    ; ("ACColorNamePoppy", "poppy")
    ; ("ACColorNamePurple", "purple")
    ; ("ACColorNameSeafoam", "seafoam")
    ; ("ACColorNameSky", "sky")
    ; ("ACColorNameTan", "tan")
    ; ("ACColorNameTeal", "teal")
    ; ("ACColorNameYellow", "yellow")
    ]
  /\ map binding color_declarations = Symbols.color_symbols
  /\ Forall (fun d => doc_asset d = Some (decl_value d)) color_declarations.
Proof.
  split; [vm_compute; reflexivity|].
  split; [vm_compute; reflexivity|].
  unfold color_declarations, declarations; simpl.
  repeat constructor.
Qed.

(** C2: the declared symbols, ACBundleID and the colour symbols, are
    pairwise distinct: no symbol is declared twice. *)
Theorem declared_names_distinct : NoDup names.
Proof. apply distinct_NoDup. vm_compute. reflexivity. Qed.

(** C3: every declared constant is bound to a non-empty string, and that
    string is the literal of its declaration line in the header. *)
Theorem declared_values_nonempty :
  Forall (fun d => decl_value d <> ""
                   /\ In (declaration_line d) GeneratedAssetSymbols_h)
         declarations.
Proof.
  apply Forall_forall. intros d Hd.
  pose (f := fun d => nonempty (decl_value d)
                      && mem (declaration_line d) GeneratedAssetSymbols_h).
  assert (Hf : f d = true)
    by (apply check_declarations; [vm_compute; reflexivity | exact Hd]).
  apply andb_true_iff in Hf as [Hne Hline].
  split; [now apply nonempty_neq | now apply mem_In].
Qed.

(** C4: the header declares exactly one bundle identifier constant,
    ACBundleID, bound to "themekit.ThemeKit"; it is the only declaration
    that is not a colour constant. *)
Theorem one_bundle_identifier :
  bundle_declarations = [mkDecl (Some BundleID) "ACBundleID" "themekit.ThemeKit"]
  /\ filter (fun d => negb (is_color d)) declarations = bundle_declarations
  /\ reference "ACBundleID" = Some "themekit.ThemeKit"
  /\ Symbols.ACBundleID = "themekit.ThemeKit".
Proof. repeat split; vm_compute; reflexivity. Qed.

(** C5: referencing a declared constant cannot fail: it resolves, and to
    the value the constant is declared with. *)
Theorem reference_declared_succeeds (d : decl) :
  In d declarations -> reference (decl_name d) = Some (decl_value d).
Proof. apply lookup_In. exact declared_once. Qed.

(** C8: the header declares exactly seventeen constants: the bundle
    identifier first, then sixteen colour resource names. *)
Theorem seventeen_constants :
  length (read_lines None GeneratedAssetSymbols_h) = 17
  /\ length declarations = 17
  /\ length bundle_declarations = 1
  /\ length color_declarations = 16
  /\ declarations = (bundle_declarations ++ color_declarations)%list.
Proof. repeat split; vm_compute; reflexivity. Qed.

(** C9: the values of the seventeen constants are pairwise distinct. *)
Theorem declared_values_distinct : NoDup values.
Proof. apply distinct_NoDup. vm_compute. reflexivity. Qed.

(** C10: the value of a colour constant is determined by its symbol: the
    symbol is ACColorName followed by a capitalised suffix, and the value is
    that suffix with its first letter in lower case.  This renaming is
    injective on the symbols of that form. *)
Theorem color_symbol_naming_rule :
  (forall d, In d color_declarations ->
     color_symbol (decl_name d) = true
     /\ symbol_asset (decl_name d) = Some (decl_value d))
  /\ (forall s t, color_symbol s = true -> color_symbol t = true ->
        symbol_asset s = symbol_asset t -> s = t).
Proof.
  split.
  - intros d Hd.
    pose (f := fun d => color_symbol (decl_name d)
                 && match symbol_asset (decl_name d) with
                    | Some v => String.eqb v (decl_value d)
                    | None => false
                    end).
    assert (Hall : forallb f color_declarations = true)
      by (vm_compute; reflexivity).
    assert (Hf : f d = true)
      by exact (proj1 (forallb_forall f color_declarations) Hall d Hd).
    apply andb_true_iff in Hf as [Hsym Hval]. split; [exact Hsym|].
    destruct (symbol_asset (decl_name d)) as [v|]; [|discriminate].
    apply String.eqb_eq in Hval. now subst.
  - intros s t. unfold color_symbol, symbol_asset.
    destruct (strip_prefix color_prefix s) as [u|] eqn:Hs; [|discriminate].
    destruct (strip_prefix color_prefix t) as [v|] eqn:Ht; [|discriminate].
    intros Hu Hv [= Huv].
    apply strip_prefix_spec in Hs, Ht. subst s t.
    f_equal. now apply lower_first_inj.
Qed.

End Properties.

(** ** Worked instances *)

Section Instances.

Import Str Header Table.

Example read_constant_sky :
  read_constant ("static NSString * const ACColorNameSky AC_SWIFT_PRIVATE = @"
                   ++ dq ++ "sky" ++ dq ++ ";")
  = Some ("ACColorNameSky", "sky").
Proof. reflexivity. Qed.

Example read_constant_undef : read_constant "#undef AC_SWIFT_PRIVATE" = None.
Proof. reflexivity. Qed.

Example read_doc_sky :
  read_doc ("/// The " ++ dq ++ "sky" ++ dq ++ " asset catalog color resource.")
  = Some (ColorResource "sky").
Proof. reflexivity. Qed.

Example read_doc_bundle : read_doc "/// The resource bundle ID." = Some BundleID.
Proof. reflexivity. Qed.

(** A symbol that the header does not declare does not resolve. *)
Example reference_undeclared : reference "ACColorNameCrimson" = None.
Proof. reflexivity. Qed.

(** Outside the capitalised symbols the renaming is not injective: the rule
    sends a suffix and its lower-case spelling to the same asset name. *)
Example symbol_asset_merges_case :
  symbol_asset "ACColorNameSky" = symbol_asset "ACColorNamesky"
  /\ "ACColorNameSky" <> "ACColorNamesky".
Proof. split; [reflexivity | discriminate]. Qed.

(** The teal constant is declared, and referencing it gives "teal". *)
Lemma reference_declared_succeeds_teal :
  In (mkDecl (Some (ColorResource "teal")) "ACColorNameTeal" "teal") declarations
  /\ reference "ACColorNameTeal" = Some "teal".
Proof.
  assert (H : In (mkDecl (Some (ColorResource "teal")) "ACColorNameTeal" "teal")
                 declarations)
    by (simpl; repeat (first [left; reflexivity | right])).
  split; [exact H | exact (reference_declared_succeeds _ H)].
Defined.

(** The periwinkle constant follows the naming rule, and the renaming tells
    the well-formed symbol ACColorNameSky from no other. *)
Lemma color_symbol_naming_rule_periwinkle :
  (color_symbol "ACColorNamePeriwinkle" = true
   /\ symbol_asset "ACColorNamePeriwinkle" = Some "periwinkle")
  /\ "ACColorNameSky" = "ACColorNameSky".
Proof.
  split.
  - apply (proj1 color_symbol_naming_rule
             (mkDecl (Some (ColorResource "periwinkle"))
                     "ACColorNamePeriwinkle" "periwinkle")).
    simpl; repeat (first [left; reflexivity | right]).
  - apply (proj2 color_symbol_naming_rule "ACColorNameSky" "ACColorNameSky");
      reflexivity.
Defined.

End Instances.

(** ** Facts about the macro table and the run of directives *)

Section CppFacts.

Import Str Header Table Cpp.


















End CppFacts.

(** ** Properties of the preprocessor directives *)

Section CppProperties.

Import Str Header Table Cpp Order.





End CppProperties.

(** ** The order of the colour declarations *)

Section OrderProperties.

Import Str Header Table Cpp Order.

Lemma ascending_StronglySorted (l : list string) :
  ascending l = true ->
  StronglySorted (fun a b => String.ltb a b = true) l.
Proof.
  induction l as [|x l IH]; simpl; intro H; constructor.
  - apply IH. now apply andb_true_iff in H.
  - apply Forall_forall. apply forallb_forall.
    now apply andb_true_iff in H.
Qed.

(** X5: the colour constants stand in the header in strictly ascending
    alphabetical order, of their symbols and of their values alike: each
    one is below every one declared after it. *)
Theorem color_declarations_ascending :
  StronglySorted (fun a b => String.ltb a b = true)
                 (map decl_name color_declarations)
  /\ StronglySorted (fun a b => String.ltb a b = true)
                    (map decl_value color_declarations).
Proof. split; apply ascending_StronglySorted; vm_compute; reflexivity. Qed.

End OrderProperties.

(** ** The header in the example setting *)

Section CppInstances.

Import Str Header Table Cpp.





End CppInstances.
